(** * chan_discord: the Asterisk binding shim (asterisk_wrapper.c / .h)

    The translation unit consists of four non-inlined C functions, each of
    which forwards to one entry point of the host framework.  The framework
    itself is not part of the repository, so the shim is embedded as a
    program over an alphabet of framework calls and interpreted against an
    arbitrary framework; a reference framework, written from the
    specification, is used where a statement is about what the framework
    does. *)

From Stdlib Require Import ZArith.
From stdpp Require Import base gmap strings list.

Local Open Scope Z_scope.

(** ** C data *)

(** A pointer is a machine address; [size_t], [unsigned int] and [int]
    arguments are integers.  The shim performs no arithmetic on any of
    them, so no wrap-around occurs in this translation unit. *)
Abbreviation ptr := Z (only parsing).

Definition NULL : ptr := 0.

(** What a C caller receives from a function: nothing, an integer or a
    pointer. *)
Inductive cval : Type :=
| Vvoid
| Vint (n : Z)
| Vptr (p : ptr).

Global Instance cval_eq_dec : EqDecision cval.
Proof. solve_decision. Defined.

(** ** The framework entry points visible to the shim

    The first four are the ones asterisk_wrapper.c calls; [ast_log] is the
    logger that asterisk/logger.h (included by asterisk_wrapper.h) makes
    available. *)
Inductive fw_call : Type :=
| ao2_alloc_options (data_size : Z) (destructor_fn : ptr) (options : Z)
| ao2_ref (obj : ptr) (delta : Z)
| ast_frdup (fr : ptr)
| ast_rtp_engine_register (engine : ptr)
| ast_log (level : Z) (message : string).

Global Instance fw_call_eq_dec : EqDecision fw_call.
Proof. solve_decision. Defined.

(** Modelled from the spec: the C types of what the entry points hand back,
    which Asterisk's headers declare and the repository does not.  The
    three results the shim returns have the shim's own return types
    ([void *], [struct ast_frame *], [int]); the result of [ao2_ref] is the
    integer count of the specification's table ("new reference count
    (integer)"); the logger returns nothing. *)
Definition fw_result (c : fw_call) : Type :=
  match c with
  | ao2_alloc_options _ _ _ => ptr
  | ao2_ref _ _ => Z
  | ast_frdup _ => ptr
  | ast_rtp_engine_register _ => Z
  | ast_log _ _ => unit
  end.

Definition fw_cval (c : fw_call) : fw_result c -> cval :=
  match c with
  | ao2_alloc_options _ _ _ => Vptr
  | ao2_ref _ _ => Vint
  | ast_frdup _ => Vptr
  | ast_rtp_engine_register _ => Vint
  | ast_log _ _ => fun _ => Vvoid
  end.

(** ** Programs over framework calls *)

Inductive shim (A : Type) : Type :=
| Ret (a : A)
| Call (c : fw_call) (k : fw_result c -> shim A).

Arguments Ret {A} a.
Arguments Call {A} c k.

Fixpoint shim_bind {A B : Type} (f : A -> shim B) (p : shim A) : shim B :=
  match p with
  | Ret a => f a
  | Call c k => Call c (fun r => shim_bind f (k r))
  end.

Global Instance shim_ret : MRet shim := fun A a => Ret a.
Global Instance shim_mbind : MBind shim := fun A B f p => shim_bind f p.
Global Instance shim_fmap : FMap shim := fun A B f p => shim_bind (fun a => Ret (f a)) p.

(** One call, its result handed back as it is. *)
Definition call (c : fw_call) : shim (fw_result c) := Call c Ret.

(** ** asterisk_wrapper.c *)

(** [void* rust_ao2_alloc(size_t data_size, ao2_destructor_fn destructor,
    unsigned int options)] *)
Definition rust_ao2_alloc (data_size : Z) (destructor : ptr) (options : Z)
  : shim ptr :=
  call (ao2_alloc_options data_size destructor options).

(** [void rust_ao2_ref(void* obj, int delta)]: the call is an expression
    statement, its value is dropped. *)
Definition rust_ao2_ref (obj : ptr) (delta : Z) : shim unit :=
  _ ← call (ao2_ref obj delta); mret tt.

(** [struct ast_frame* rust_ast_frdup(struct ast_frame* frame)] *)
Definition rust_ast_frdup (frame : ptr) : shim ptr :=
  call (ast_frdup frame).

(** [int rust_ast_rtp_engine_register(struct ast_rtp_engine *engine)] *)
Definition rust_ast_rtp_engine_register (engine : ptr) : shim Z :=
  call (ast_rtp_engine_register engine).

(** ** The four exported operations as a caller sees them *)

Inductive shim_op : Type :=
| Op_ao2_alloc (data_size : Z) (destructor : ptr) (options : Z)
| Op_ao2_ref (obj : ptr) (delta : Z)
| Op_ast_frdup (frame : ptr)
| Op_ast_rtp_engine_register (engine : ptr).

(** The operation run, with its return value at the C level. *)
Definition entry (o : shim_op) : shim cval :=
  match o with
  | Op_ao2_alloc data_size destructor options =>
      Vptr <$> rust_ao2_alloc data_size destructor options
  | Op_ao2_ref obj delta =>
      (fun _ : unit => Vvoid) <$> rust_ao2_ref obj delta
  | Op_ast_frdup frame =>
      Vptr <$> rust_ast_frdup frame
  | Op_ast_rtp_engine_register engine =>
      Vint <$> rust_ast_rtp_engine_register engine
  end.

(** The framework entry point behind each operation, on the same
    arguments. *)
Definition underlying (o : shim_op) : fw_call :=
  match o with
  | Op_ao2_alloc data_size destructor options =>
      ao2_alloc_options data_size destructor options
  | Op_ao2_ref obj delta => ao2_ref obj delta
  | Op_ast_frdup frame => ast_frdup frame
  | Op_ast_rtp_engine_register engine => ast_rtp_engine_register engine
  end.

(** ** Running a program against a framework *)

(** A framework over worlds [W] answers every call and leaves a new
    world. *)
Definition framework (W : Type) : Type :=
  forall c : fw_call, W -> fw_result c * W.

Fixpoint run {W A : Type} (fw : framework W) (p : shim A) (w : W) : A * W :=
  match p with
  | Ret a => (a, w)
  | Call c k => let r := fw c w in run fw (k r.1) r.2
  end.

(** The framework calls a program makes, in order, with their arguments. *)
Fixpoint calls {W A : Type} (fw : framework W) (p : shim A) (w : W)
  : list fw_call :=
  match p with
  | Ret _ => []
  | Call c k => let r := fw c w in c :: calls fw (k r.1) r.2
  end.

(** A sequence of operations, one after the other: the values returned and
    the world left. *)
Fixpoint run_seq {W : Type} (fw : framework W) (ops : list shim_op) (w : W)
  : list cval * W :=
  match ops with
  | [] => ([], w)
  | o :: rest =>
      let r := run fw (entry o) w in
      let rs := run_seq fw rest r.2 in
      (r.1 :: rs.1, rs.2)
  end.

(** The same sequence with the framework called directly. *)
Fixpoint direct_seq {W : Type} (fw : framework W) (ops : list shim_op) (w : W)
  : W :=
  match ops with
  | [] => w
  | o :: rest => direct_seq fw rest (fw (underlying o) w).2
  end.

(** A framework placed next to state [E] it knows nothing about. *)
Definition beside {W : Type} (E : Type) (fw : framework W) : framework (E * W) :=
  fun c ew => let r := fw c ew.2 in (r.1, (ew.1, r.2)).

(** The framework calls a sequence of operations makes, in order. *)
Fixpoint calls_seq {W : Type} (fw : framework W) (ops : list shim_op) (w : W)
  : list fw_call :=
  match ops with
  | [] => []
  | o :: rest =>
      calls fw (entry o) w ++ calls_seq fw rest (run fw (entry o) w).2
  end.

(** ** Statements about one call, used below *)

(** The operation hands its caller the very value the underlying call
    produced. *)
Definition returns_underlying_value {W : Type} (fw : framework W)
    (o : shim_op) (w : W) : Prop :=
  (run fw (entry o) w).1 = fw_cval (underlying o) (fw (underlying o) w).1.

(** The underlying allocation reports failure the way the framework does,
    by a null pointer. *)
Definition underlying_alloc_fails {W : Type} (fw : framework W)
    (size : Z) (destructor : ptr) (opts : Z) (w : W) : Prop :=
  (fw (ao2_alloc_options size destructor opts) w).1 = NULL.

(** ** A reference framework

    Asterisk's object system, frame subsystem and RTP engine registry are
    not in the repository.  Where a statement is about what they do, it is
    settled against the framework below, which is written from the
    specification's description of them. *)

Module Model.

(** Modelled from the spec: the framework's reference-counted object
    ("a heap allocation whose lifetime is governed by an integer count",
    created "with an associated destructor and option flags"): its count,
    the size of its user data, its destructor and its option flags. *)
Record ao2_object : Type := Ao2Object {
  refcount : Z;
  data_size : Z;
  destructor_fn : ptr;
  options : Z
}.

(** Modelled from the spec: the framework's RTP engine descriptor
    ("populated by caller with required callback table", "looked up by
    name"): the identifying name and whether the callback table is filled
    in. *)
Record rtp_engine : Type := RtpEngine {
  engine_name : string;
  callbacks_populated : bool
}.

(** Modelled from the spec: the framework's state, which no file of the
    repository declares: the bytes the allocator can still hand out,
    the live reference-counted objects, the live frames (a frame is its
    bytes), the engine descriptors lying in the caller's memory, the
    global engine registry by name, the destructor invocations so far
    (destructor and object, newest first) and the log. *)
Record world : Type := World {
  heap_avail : Z;
  objects : gmap Z ao2_object;
  frames : gmap Z (list Z);
  descriptors : gmap Z rtp_engine;
  registry : gmap string Z;
  destroyed : list (ptr * ptr);
  logged : list (Z * string)
}.

Global Instance ao2_object_eq_dec : EqDecision ao2_object.
Proof. solve_decision. Defined.
Global Instance rtp_engine_eq_dec : EqDecision rtp_engine.
Proof. solve_decision. Defined.
Global Instance world_eq_dec : EqDecision world.
Proof. solve_decision. Defined.

(** Modelled from the spec: the framework's choice of a "newly allocated
    handle", an address that is not null and designates nothing live. *)
Definition fresh_handle (w : world) : ptr :=
  fresh ({[NULL]} ∪ dom (objects w) ∪ dom (frames w) ∪ dom (descriptors w)).

(** Modelled from the spec: the "new frame memory" a duplicate needs, the
    bytes of the frame. *)
Definition frame_bytes (content : list Z) : Z := Z.of_nat (length content).

Section WithOptions.

(** Modelled from the spec: the option flags the framework recognises
    ("recognized values defined by host framework"), left open. *)
Variable recognized : Z -> bool.

(** Modelled from the spec: a valid allocation input, "size in bytes (>0),
    destructor callback (may be null), option flags (bitmask, recognized
    values defined by host framework)". *)
Definition valid_alloc_input (size : Z) (destructor : ptr) (opts : Z) : Prop :=
  0 < size ∧ recognized opts = true.

Global Instance valid_alloc_input_dec size destructor opts :
  Decision (valid_alloc_input size destructor opts).
Proof. unfold valid_alloc_input. apply _. Defined.

(** Modelled from the spec: the framework's [ao2_alloc_options], which
    lives in Asterisk and not in this repository.  "Inputs: size in
    bytes (>0), destructor callback (may be null), option flags
    (bitmask, recognized values defined by host framework); result:
    newly allocated handle, or null; returns null on allocation
    failure; allocates heap memory owned by caller."  The allocation
    fails when the heap cannot supply [size] bytes, and on an input that
    is not valid.  The caller holds the one reference of the new object
    ("ownership transfers immediately to the caller", whose "release path
    invokes the decrement operation exactly once"). *)
Definition model_ao2_alloc_options (size : Z) (destructor : ptr) (opts : Z)
    (w : world) : ptr * world :=
  if decide (valid_alloc_input size destructor opts ∧ size ≤ heap_avail w) then
    let h := fresh_handle w in
    (h, World (heap_avail w - size)
              (<[h := Ao2Object 1 size destructor opts]> (objects w))
              (frames w) (descriptors w) (registry w) (destroyed w) (logged w))
  else (NULL, w).

(** Modelled from the spec: the framework's [ao2_ref], which lives in
    Asterisk.  "Existing handle, signed delta (+1 increment, −1
    decrement); new reference count (integer); may trigger destructor
    and deallocation when count reaches zero."  A null destructor is
    not invoked.  A handle that designates no live object is outside
    the contract; the reference framework then changes nothing. *)
Definition model_ao2_ref (obj : ptr) (delta : Z) (w : world) : Z * world :=
  match objects w !! obj with
  | None => (-1, w)
  | Some o =>
      let n := refcount o + delta in
      if decide (n = 0) then
        (n, World (heap_avail w + data_size o)
                  (delete obj (objects w))
                  (frames w) (descriptors w) (registry w)
                  (if decide (destructor_fn o = NULL) then destroyed w
                   else (destructor_fn o, obj) :: destroyed w)
                  (logged w))
      else
        (n, World (heap_avail w)
                  (<[obj := Ao2Object n (data_size o) (destructor_fn o) (options o)]>
                     (objects w))
                  (frames w) (descriptors w) (registry w) (destroyed w) (logged w))
  end.

(** Modelled from the spec: the framework's [ast_frdup], which lives in
    Asterisk.  "Existing frame handle (non-null); new, independently
    owned frame handle, or null on failure; returns null if underlying
    duplication fails (e.g., out of memory); allocates new frame
    memory."  The copy has the content of the original. *)
Definition model_ast_frdup (fr : ptr) (w : world) : ptr * world :=
  match frames w !! fr with
  | None => (NULL, w)
  | Some content =>
      if decide (frame_bytes content ≤ heap_avail w) then
        let h := fresh_handle w in
        (h, World (heap_avail w - frame_bytes content)
                  (objects w)
                  (<[h := content]> (frames w))
                  (descriptors w) (registry w) (destroyed w) (logged w))
      else (NULL, w)
  end.

(** Modelled from the spec: the framework's [ast_rtp_engine_register],
    which lives in Asterisk.  "Engine descriptor (non-null, populated
    by caller with required callback table); integer status code (0 =
    success, nonzero = failure); nonzero on duplicate registration or
    malformed descriptor; mutates framework's global engine registry",
    the registry being "a global table looked up by name". *)
Definition model_ast_rtp_engine_register (engine : ptr) (w : world) : Z * world :=
  match descriptors w !! engine with
  | None => (-1, w)
  | Some e =>
      if decide (callbacks_populated e = true ∧ registry w !! engine_name e = None) then
        (0, World (heap_avail w) (objects w) (frames w) (descriptors w)
                  (<[engine_name e := engine]> (registry w))
                  (destroyed w) (logged w))
      else (-1, w)
  end.

(** Modelled from the spec: the framework's logger, which the shim is said
    not to use; a message logged is kept. *)
Definition model_ast_log (level : Z) (message : string) (w : world) : unit * world :=
  (tt, World (heap_avail w) (objects w) (frames w) (descriptors w)
             (registry w) (destroyed w) ((level, message) :: logged w)).

(** Modelled from the spec: the framework as a whole, each entry point
    answered by its definition above. *)
Definition model : framework world :=
  fun c =>
    match c as c' return world -> fw_result c' * world with
    | ao2_alloc_options size destructor opts =>
        model_ao2_alloc_options size destructor opts
    | ao2_ref obj delta => model_ao2_ref obj delta
    | ast_frdup fr => model_ast_frdup fr
    | ast_rtp_engine_register engine => model_ast_rtp_engine_register engine
    | ast_log level message => model_ast_log level message
    end.

End WithOptions.

(** Modelled from the spec: how often destructor [d] has been triggered on
    object [obj]. *)
Definition invocations (d obj : ptr) (w : world) : nat :=
  length (filter (fun x => x = (d, obj)) (destroyed w)).

(** Modelled from the spec: a well-formed descriptor, one "populated by
    caller with required callback table". *)
Definition well_formed (e : rtp_engine) : Prop := callbacks_populated e = true.

(** The allocation operation answers with a non-null handle whose
    backing memory is [size] bytes. *)
Definition alloc_nonnull_of_size (recognized : Z -> bool)
    (size : Z) (destructor : ptr) (opts : Z) (w : world) : Prop :=
  let r := run (model recognized) (rust_ao2_alloc size destructor opts) w in
  r.1 ≠ NULL ∧ data_size <$> objects r.2 !! r.1 = Some size.

(** The reference-count adjustment hands its caller the new count of
    [obj]. *)
Definition returns_new_refcount (recognized : Z -> bool)
    (obj : ptr) (delta : Z) (w : world) : Prop :=
  let r := run (model recognized) (entry (Op_ao2_ref obj delta)) w in
  ∀ o, objects r.2 !! obj = Some o → r.1 = Vint (refcount o).

(** Concrete worlds. *)
Definition only_zero (opts : Z) : bool := bool_decide (opts = 0).

Definition empty_world (avail : Z) : world :=
  World avail ∅ ∅ ∅ ∅ [] [].

Definition exhausted : world := empty_world 0.

Definition one_object (count : Z) : world :=
  World 64 {[ 8 := Ao2Object count 16 4096 0 ]} ∅ ∅ ∅ [] [].

Definition one_frame (avail : Z) : world :=
  World avail ∅ {[ 8 := [1; 2; 3] ]} ∅ ∅ [] [].

Definition two_engines : world :=
  World 64 ∅ ∅ {[ 8 := RtpEngine "discord" true; 16 := RtpEngine "discord" true ]}
        ∅ [] [].

End Model.

(** * Properties of the shim against an arbitrary framework *)

Section Shim.

Context {W : Type} (fw : framework W).

Lemma run_call (c : fw_call) (w : W) : run fw (call c) w = fw c w.
Proof. unfold call. simpl. by destruct (fw c w). Qed.

Lemma calls_call (c : fw_call) (w : W) : calls fw (call c) w = [c].
Proof. reflexivity. Qed.

Lemma run_rust_ao2_alloc size destructor opts w :
  run fw (rust_ao2_alloc size destructor opts) w
  = fw (ao2_alloc_options size destructor opts) w.
Proof. exact (run_call (ao2_alloc_options size destructor opts) w). Qed.

Lemma run_rust_ao2_ref obj delta w :
  run fw (rust_ao2_ref obj delta) w = (tt, (fw (ao2_ref obj delta) w).2).
Proof. reflexivity. Qed.

Lemma run_rust_ast_frdup frame w :
  run fw (rust_ast_frdup frame) w = fw (ast_frdup frame) w.
Proof. exact (run_call (ast_frdup frame) w). Qed.

Lemma run_rust_ast_rtp_engine_register engine w :
  run fw (rust_ast_rtp_engine_register engine) w
  = fw (ast_rtp_engine_register engine) w.
Proof. exact (run_call (ast_rtp_engine_register engine) w). Qed.

(** Whatever the operation, the world it leaves is the one its underlying
    call left. *)
Lemma entry_world (o : shim_op) (w : W) :
  (run fw (entry o) w).2 = (fw (underlying o) w).2.
Proof. by destruct o. Qed.

Lemma entry_calls (o : shim_op) (w : W) :
  calls fw (entry o) w = [underlying o].
Proof. by destruct o. Qed.

Lemma run_seq_world (ops : list shim_op) (w : W) :
  (run_seq fw ops w).2 = direct_seq fw ops w.
Proof.
  revert w. induction ops as [|o rest IH]; intros w; simpl; [done|].
  by rewrite IH, entry_world.
Qed.

Lemma run_seq_app (pre post : list shim_op) (w : W) :
  run_seq fw (pre ++ post) w
  = ((run_seq fw pre w).1 ++ (run_seq fw post (run_seq fw pre w).2).1,
     (run_seq fw post (run_seq fw pre w).2).2).
Proof.
  revert w. induction pre as [|o rest IH]; intros w; simpl.
  - by destruct (run_seq fw post w).
  - by rewrite IH.
Qed.

Lemma run_seq_beside (E : Type) (ops : list shim_op) (e : E) (w : W) :
  run_seq (beside E fw) ops (e, w)
  = ((run_seq fw ops w).1, (e, (run_seq fw ops w).2)).
Proof.
  revert w. induction ops as [|o rest IH]; intros w; simpl; [done|].
  assert (run (beside E fw) (entry o) (e, w)
          = ((run fw (entry o) w).1, (e, (run fw (entry o) w).2))) as ->
    by (by destruct o).
  simpl. by rewrite IH.
Qed.

End Shim.

(** ** The exported operations, one by one *)

(** C1 (as amended): for every handle and signed delta, the
    reference-count adjustment operation makes the one underlying [ao2_ref]
    call on these arguments and returns no value: its C return type is
    [void], the caller receives nothing, and the integer the underlying call
    produced is dropped. *)
Theorem rust_ao2_ref_returns_void :
  ∀ (W : Type) (fw : framework W) (obj : ptr) (delta : Z) (w : W),
    run fw (rust_ao2_ref obj delta) w = (tt, (fw (ao2_ref obj delta) w).2)
    ∧ calls fw (rust_ao2_ref obj delta) w = [ao2_ref obj delta]
    ∧ (run fw (entry (Op_ao2_ref obj delta)) w).1 = Vvoid.
Proof. intros. by repeat split. Qed.

(** C1 (as stated) fails: on a live object of count 2 an increment leaves
    the count 3, and the caller receives no value, not the integer 3. *)
Lemma rust_ao2_ref_new_count_not_returned :
  let r := run (Model.model Model.only_zero) (entry (Op_ao2_ref 8 1))
               (Model.one_object 2) in
  Model.refcount <$> Model.objects r.2 !! 8 = Some 3
  ∧ r.1 = Vvoid
  ∧ ¬ Model.returns_new_refcount Model.only_zero 8 1 (Model.one_object 2).
Proof.
  split; [by vm_compute|]. split; [done|].
  intros H. specialize (H (Model.Ao2Object 3 16 4096 0)).
  assert (Vvoid = Vint 3) as E; [|discriminate E].
  apply H. by vm_compute.
Qed.

(** C2 (as amended): for every input and every framework, each of the
    three value-returning operations returns exactly the value, and leaves
    exactly the world, of its single underlying call
    ([rust_ao2_alloc] = [ao2_alloc_options], [rust_ast_frdup] = [ast_frdup],
    [rust_ast_rtp_engine_register] = [ast_rtp_engine_register]); the fourth,
    [rust_ao2_ref], makes its single [ao2_ref] call and returns nothing. *)
Theorem shim_returns_underlying_result :
  ∀ (W : Type) (fw : framework W) (w : W),
    (∀ size destructor opts,
        run fw (rust_ao2_alloc size destructor opts) w
        = fw (ao2_alloc_options size destructor opts) w
        ∧ returns_underlying_value fw (Op_ao2_alloc size destructor opts) w)
    ∧ (∀ frame,
        run fw (rust_ast_frdup frame) w = fw (ast_frdup frame) w
        ∧ returns_underlying_value fw (Op_ast_frdup frame) w)
    ∧ (∀ engine,
        run fw (rust_ast_rtp_engine_register engine) w
        = fw (ast_rtp_engine_register engine) w
        ∧ returns_underlying_value fw (Op_ast_rtp_engine_register engine) w)
    ∧ (∀ obj delta,
        run fw (rust_ao2_ref obj delta) w = (tt, (fw (ao2_ref obj delta) w).2)
        ∧ (run fw (entry (Op_ao2_ref obj delta)) w).1 = Vvoid)
    ∧ (∀ o, calls fw (entry o) w = [underlying o]).
Proof.
  intros W fw w. split; [|split; [|split; [|split]]].
  - intros size destructor opts. split; [apply run_rust_ao2_alloc|done].
  - intros frame. split; [apply run_rust_ast_frdup|done].
  - intros engine. split; [apply run_rust_ast_rtp_engine_register|done].
  - done.
  - intros o. apply entry_calls.
Qed.

(** C2 (as stated) fails for the fourth operation: the underlying [ao2_ref]
    produces the integer 3, the shim returns nothing. *)
Lemma rust_ao2_ref_drops_underlying_value :
  fw_cval (ao2_ref 8 1)
    (Model.model Model.only_zero (ao2_ref 8 1) (Model.one_object 2)).1 = Vint 3
  ∧ ¬ returns_underlying_value (Model.model Model.only_zero)
        (Op_ao2_ref 8 1) (Model.one_object 2).
Proof.
  split; [by vm_compute|].
  unfold returns_underlying_value. vm_compute. discriminate.
Qed.

(** C4: the allocation operation has one way to fail, the null pointer of
    the underlying allocation.  It returns null exactly when the underlying
    allocation fails; when that succeeds the handle returned is the
    framework's and is not null; the world left is the one the underlying
    call left and nothing but that call is made (nothing is logged, no
    second channel is written). *)
Theorem rust_ao2_alloc_fails_only_by_null :
  ∀ (W : Type) (fw : framework W) (size : Z) (destructor : ptr) (opts : Z) (w : W),
    let r := run fw (rust_ao2_alloc size destructor opts) w in
    (r.1 = NULL ↔ underlying_alloc_fails fw size destructor opts w)
    ∧ (¬ underlying_alloc_fails fw size destructor opts w →
       r.1 ≠ NULL ∧ r.1 = (fw (ao2_alloc_options size destructor opts) w).1)
    ∧ r.2 = (fw (ao2_alloc_options size destructor opts) w).2
    ∧ calls fw (rust_ao2_alloc size destructor opts) w
      = [ao2_alloc_options size destructor opts].
Proof.
  intros W fw size destructor opts w r. subst r.
  rewrite run_rust_ao2_alloc. unfold underlying_alloc_fails.
  by repeat split.
Qed.

(** C7: for every input (null handles and unrecognised option flags
    included) and every framework, each operation is its underlying call
    and nothing else: the program is that call on the unchanged arguments
    followed by the return, whatever the arguments are; exactly that call
    reaches the framework (in particular no [ast_log]); and the world is
    left as the call left it. *)
Theorem shim_forwards_unconditionally :
  (∀ size destructor opts,
      rust_ao2_alloc size destructor opts
      = Call (ao2_alloc_options size destructor opts) Ret)
  ∧ (∀ obj delta,
      rust_ao2_ref obj delta = Call (ao2_ref obj delta) (fun _ => Ret tt))
  ∧ (∀ frame, rust_ast_frdup frame = Call (ast_frdup frame) Ret)
  ∧ (∀ engine,
      rust_ast_rtp_engine_register engine
      = Call (ast_rtp_engine_register engine) Ret)
  ∧ (∀ (W : Type) (fw : framework W) (o : shim_op) (w : W),
      calls fw (entry o) w = [underlying o]
      ∧ (∀ level message, ast_log level message ∉ calls fw (entry o) w)
      ∧ (run fw (entry o) w).2 = (fw (underlying o) w).2).
Proof.
  split; [done|]. split; [done|]. split; [done|]. split; [done|].
  intros W fw o w. split; [apply entry_calls|]. split; [|apply entry_world].
  intros level message. rewrite entry_calls, list_elem_of_singleton.
  by destruct o.
Qed.

(** C9: the shim owns no state.  For every sequence of calls to the four
    operations: the world left is the one the underlying calls leave when
    made directly; any state lying beside the framework's is unchanged; and
    what an operation returns after earlier shim calls is what it returns
    when run on its own in the world those underlying calls left. *)
Theorem shim_owns_no_state :
  ∀ (W : Type) (fw : framework W) (ops : list shim_op) (w : W),
    (run_seq fw ops w).2 = direct_seq fw ops w
    ∧ (∀ (E : Type) (e : E),
        run_seq (beside E fw) ops (e, w)
        = ((run_seq fw ops w).1, (e, (run_seq fw ops w).2)))
    ∧ (∀ o : shim_op,
        (run_seq fw (ops ++ [o]) w).1
        = (run_seq fw ops w).1 ++ [(run fw (entry o) (direct_seq fw ops w)).1]).
Proof.
  intros W fw ops w. split; [apply run_seq_world|].
  split; [intros E e; apply run_seq_beside|].
  intros o. rewrite run_seq_app. simpl. by rewrite run_seq_world.
Qed.

(** C10: the shim adds no nondeterminism.  Two calls of one operation on
    equal arguments, in any two frameworks and worlds in which the
    underlying call yields the same result, return equal values. *)
Theorem shim_deterministic :
  ∀ (W1 W2 : Type) (fw1 : framework W1) (fw2 : framework W2)
    (o : shim_op) (w1 : W1) (w2 : W2),
    (fw1 (underlying o) w1).1 = (fw2 (underlying o) w2).1 →
    (run fw1 (entry o) w1).1 = (run fw2 (entry o) w2).1.
Proof.
  intros W1 W2 fw1 fw2 o w1 w2 H.
  destruct o; simpl in *; by rewrite ?H.
Qed.

Lemma shim_deterministic_witness :
  (run (Model.model Model.only_zero) (entry (Op_ao2_alloc 16 0 0))
       (Model.empty_world 64)).1
  = (run (Model.model Model.only_zero) (entry (Op_ao2_alloc 16 0 0))
         (Model.empty_world 32)).1.
Proof.
  apply (shim_deterministic _ _ (Model.model Model.only_zero)
           (Model.model Model.only_zero) (Op_ao2_alloc 16 0 0)
           (Model.empty_world 64) (Model.empty_world 32)).
  vm_compute. reflexivity.
Defined.

(** * Properties that rest on the reference framework *)

Lemma fresh_handle_fresh (w : Model.world) :
  Model.fresh_handle w ≠ NULL
  ∧ Model.objects w !! Model.fresh_handle w = None
  ∧ Model.frames w !! Model.fresh_handle w = None
  ∧ Model.descriptors w !! Model.fresh_handle w = None.
Proof.
  unfold Model.fresh_handle.
  pose proof (is_fresh ({[NULL]} ∪ dom (Model.objects w) ∪ dom (Model.frames w)
                          ∪ dom (Model.descriptors w))) as F.
  rewrite <- !not_elem_of_dom. set_solver.
Qed.

Lemma invocations_cons (d obj : ptr) (x : ptr * ptr) (w w' : Model.world) :
  Model.destroyed w' = x :: Model.destroyed w →
  Model.invocations d obj w'
  = ((if decide (x = (d, obj)) then 1 else 0) + Model.invocations d obj w)%nat.
Proof.
  unfold Model.invocations. intros ->.
  rewrite filter_cons. by destruct (decide (x = (d, obj))).
Qed.

Section OnModel.

Variable recognized : Z -> bool.

Lemma model_alloc_success size destructor opts w :
  Model.valid_alloc_input recognized size destructor opts →
  size ≤ Model.heap_avail w →
  run (Model.model recognized) (rust_ao2_alloc size destructor opts) w
  = (Model.fresh_handle w,
     Model.World (Model.heap_avail w - size)
       (<[Model.fresh_handle w := Model.Ao2Object 1 size destructor opts]>
          (Model.objects w))
       (Model.frames w) (Model.descriptors w) (Model.registry w)
       (Model.destroyed w) (Model.logged w)).
Proof.
  intros Hv Hfit. rewrite run_rust_ao2_alloc. simpl.
  unfold Model.model_ao2_alloc_options. by rewrite decide_True.
Qed.

Lemma model_alloc_failure size destructor opts w :
  Model.heap_avail w < size →
  run (Model.model recognized) (rust_ao2_alloc size destructor opts) w = (NULL, w).
Proof.
  intros Hfit. rewrite run_rust_ao2_alloc. simpl.
  unfold Model.model_ao2_alloc_options. rewrite decide_False; [done|lia].
Qed.

Lemma model_register_fresh engine e w :
  Model.descriptors w !! engine = Some e →
  Model.well_formed e →
  Model.registry w !! Model.engine_name e = None →
  Model.model_ast_rtp_engine_register engine w
  = (0, Model.World (Model.heap_avail w) (Model.objects w) (Model.frames w)
          (Model.descriptors w)
          (<[Model.engine_name e := engine]> (Model.registry w))
          (Model.destroyed w) (Model.logged w)).
Proof.
  intros He Hwf Hfree. unfold Model.model_ast_rtp_engine_register.
  rewrite He. by rewrite decide_True.
Qed.

Lemma model_register_taken engine e holder w :
  Model.descriptors w !! engine = Some e →
  Model.registry w !! Model.engine_name e = Some holder →
  Model.model_ast_rtp_engine_register engine w = (-1, w).
Proof.
  intros He Htaken. unfold Model.model_ast_rtp_engine_register.
  rewrite He. rewrite decide_False; [done|].
  intros [_ Hnone]. by rewrite Htaken in Hnone.
Qed.

Lemma model_register_status engine w :
  let r := run (Model.model recognized) (rust_ast_rtp_engine_register engine) w in
  (r.1 = 0
   ∧ ∃ e, Model.descriptors w !! engine = Some e
          ∧ Model.registry w !! Model.engine_name e = None
          ∧ Model.registry r.2 !! Model.engine_name e = Some engine)
  ∨ (r.1 ≠ 0 ∧ r.2 = w).
Proof.
  rewrite run_rust_ast_rtp_engine_register. simpl.
  unfold Model.model_ast_rtp_engine_register.
  destruct (Model.descriptors w !! engine) as [e|] eqn:He; [|by right].
  destruct (decide _) as [[_ Hnone]|_]; [left|by right].
  split; [done|]. exists e. simpl. by rewrite lookup_insert_eq.
Qed.

End OnModel.

(** C3 (as stated) fails: a valid request of 16 bytes on an exhausted heap
    is answered with null. *)
Lemma rust_ao2_alloc_null_on_exhausted_heap :
  Model.valid_alloc_input Model.only_zero 16 NULL 0
  ∧ (run (Model.model Model.only_zero) (rust_ao2_alloc 16 NULL 0)
         Model.exhausted).1 = NULL
  ∧ ¬ Model.alloc_nonnull_of_size Model.only_zero 16 NULL 0 Model.exhausted.
Proof.
  split; [by vm_compute|]. split; [by vm_compute|].
  intros [Hnull _]. apply Hnull. by vm_compute.
Qed.

(** C3 (as amended): for all valid (size, destructor, options) inputs, when
    the underlying allocation does not fail (the heap can supply [size]
    bytes) the allocation operation returns a non-null handle, not in use
    before, whose backing memory is exactly [size] bytes; when the
    allocation fails it returns null and nothing is allocated. *)
Theorem rust_ao2_alloc_valid_input :
  ∀ (recognized : Z → bool) (size : Z) (destructor : ptr) (opts : Z)
    (w : Model.world),
    Model.valid_alloc_input recognized size destructor opts →
    let r := run (Model.model recognized) (rust_ao2_alloc size destructor opts) w in
    (size ≤ Model.heap_avail w →
       Model.alloc_nonnull_of_size recognized size destructor opts w
       ∧ Model.objects w !! r.1 = None
       ∧ Model.objects r.2 !! r.1 = Some (Model.Ao2Object 1 size destructor opts))
    ∧ (Model.heap_avail w < size → r.1 = NULL ∧ r.2 = w).
Proof.
  intros recognized size destructor opts w Hv r. subst r. split.
  - intros Hfit. unfold Model.alloc_nonnull_of_size.
    rewrite model_alloc_success by done. simpl.
    destruct (fresh_handle_fresh w) as (Hnull & Hobj & _).
    rewrite lookup_insert_eq. by repeat split.
  - intros Hfit. by rewrite model_alloc_failure.
Qed.

Lemma rust_ao2_alloc_valid_input_witness :
  Model.alloc_nonnull_of_size Model.only_zero 16 4096 0 (Model.empty_world 64)
  ∧ (run (Model.model Model.only_zero) (rust_ao2_alloc 16 4096 0)
         (Model.empty_world 8)).1 = NULL.
Proof.
  assert (Model.valid_alloc_input Model.only_zero 16 4096 0) as Hv
    by (by vm_compute).
  split.
  - apply (rust_ao2_alloc_valid_input Model.only_zero 16 4096 0
             (Model.empty_world 64) Hv). simpl. lia.
  - apply (rust_ao2_alloc_valid_input Model.only_zero 16 4096 0
             (Model.empty_world 8) Hv). simpl. lia.
Defined.

(** C5: for every non-null handle of an existing frame, the
    frame-duplication operation returns null exactly when the underlying
    duplication fails (the heap cannot supply the bytes of the frame), and
    then changes nothing; otherwise it returns a new handle (not null, in
    use neither as a frame nor as an object before, different from the
    original) of a frame with the content of the original, which it owns on
    its own: the original is still there with its content, and taking the
    copy away again gives back the frames as they were. *)
Theorem rust_ast_frdup_null_iff_failure :
  ∀ (recognized : Z → bool) (frame : ptr) (content : list Z) (w : Model.world),
    frame ≠ NULL →
    Model.frames w !! frame = Some content →
    let r := run (Model.model recognized) (rust_ast_frdup frame) w in
    r = Model.model recognized (ast_frdup frame) w
    ∧ (r.1 = NULL ↔ Model.heap_avail w < Model.frame_bytes content)
    ∧ (r.1 = NULL → r.2 = w)
    ∧ (r.1 ≠ NULL →
         Model.frames w !! r.1 = None
         ∧ Model.objects w !! r.1 = None
         ∧ r.1 ≠ frame
         ∧ Model.frames r.2 !! r.1 = Some content
         ∧ Model.frames r.2 !! frame = Some content
         ∧ delete r.1 (Model.frames r.2) = Model.frames w).
Proof.
  intros recognized frame content w Hnn Hlive r. subst r.
  rewrite run_rust_ast_frdup. split; [done|]. simpl.
  unfold Model.model_ast_frdup. rewrite Hlive.
  destruct (fresh_handle_fresh w) as (Hnull & Hobj & Hfr & _).
  destruct (decide (Model.frame_bytes content ≤ Model.heap_avail w)) as [Hfit|Hfit];
    simpl.
  - split; [split; [done|lia]|]. split; [done|]. intros _.
    assert (Model.fresh_handle w ≠ frame) as Hne by congruence.
    rewrite lookup_insert_eq, lookup_insert_ne by done.
    repeat split; try done.
    rewrite delete_insert_eq. by apply delete_id.
  - split; [split; [lia|done]|]. split; [done|]. by intros [].
Qed.

Lemma rust_ast_frdup_null_iff_failure_witness :
  (run (Model.model Model.only_zero) (rust_ast_frdup 8) (Model.one_frame 5)).1 ≠ NULL
  ∧ (run (Model.model Model.only_zero) (rust_ast_frdup 8) (Model.one_frame 2)).1 = NULL.
Proof.
  split.
  - destruct (rust_ast_frdup_null_iff_failure Model.only_zero 8 [1; 2; 3]
                (Model.one_frame 5)) as (_ & Hiff & _);
      [done | by vm_compute |].
    intros H. apply Hiff in H. vm_compute in H. discriminate H.
  - apply (rust_ast_frdup_null_iff_failure Model.only_zero 8 [1; 2; 3]
             (Model.one_frame 2)); [done | by vm_compute |].
    by vm_compute.
Defined.

(** C6: the registration operation returns an integer status, 0 for
    success and nonzero for failure: it returns 0 and the engine is in the
    registry under its name, or it returns nonzero and nothing has changed.
    Registering a well-formed descriptor whose name is not registered yet
    returns 0, and registering after it a second engine with the same
    identifying name returns nonzero. *)
Theorem rust_ast_rtp_engine_register_status :
  ∀ (recognized : Z → bool) (first second : ptr)
    (e1 e2 : Model.rtp_engine) (w : Model.world),
    Model.descriptors w !! first = Some e1 →
    Model.well_formed e1 →
    Model.registry w !! Model.engine_name e1 = None →
    Model.descriptors w !! second = Some e2 →
    Model.engine_name e2 = Model.engine_name e1 →
    let r1 := run (Model.model recognized) (rust_ast_rtp_engine_register first) w in
    let r2 := run (Model.model recognized) (rust_ast_rtp_engine_register second) r1.2 in
    r1.1 = 0
    ∧ Model.registry r1.2 !! Model.engine_name e1 = Some first
    ∧ r2.1 ≠ 0
    ∧ r2.2 = r1.2
    ∧ (∀ (engine : ptr) (w0 : Model.world),
         let r := run (Model.model recognized)
                      (rust_ast_rtp_engine_register engine) w0 in
         (r.1 = 0
          ∧ ∃ e, Model.descriptors w0 !! engine = Some e
                 ∧ Model.registry w0 !! Model.engine_name e = None
                 ∧ Model.registry r.2 !! Model.engine_name e = Some engine)
         ∨ (r.1 ≠ 0 ∧ r.2 = w0)).
Proof.
  intros recognized first second e1 e2 w H1 Hwf Hfree H2 Hname r1 r2.
  subst r1 r2. rewrite !run_rust_ast_rtp_engine_register. simpl.
  rewrite (model_register_fresh first e1 w) by done. simpl.
  rewrite (model_register_taken second e2 first); simpl;
    [|done|by rewrite Hname, lookup_insert_eq].
  split; [done|]. split; [by rewrite lookup_insert_eq|].
  split; [done|]. split; [done|].
  intros engine w0. apply (model_register_status recognized).
Qed.

Lemma rust_ast_rtp_engine_register_status_witness :
  (run_seq (Model.model Model.only_zero)
     [Op_ast_rtp_engine_register 8; Op_ast_rtp_engine_register 16]
     Model.two_engines).1 = [Vint 0; Vint (-1)]
  ∧ (run (Model.model Model.only_zero) (rust_ast_rtp_engine_register 8)
         Model.two_engines).1 = 0.
Proof.
  split; [by vm_compute|].
  apply (rust_ast_rtp_engine_register_status Model.only_zero 8 16
           (Model.RtpEngine "discord" true) (Model.RtpEngine "discord" true)
           Model.two_engines); by vm_compute.
Defined.

(** C8: for a handle whose reference count is 1 and which has a destructor,
    adjusting the count by −1 invokes that destructor on the object exactly
    once (one invocation is recorded, not none and not two), after which the
    handle designates no live object. *)
Theorem rust_ao2_ref_last_reference :
  ∀ (recognized : Z → bool) (obj : ptr) (o : Model.ao2_object) (w : Model.world),
    Model.objects w !! obj = Some o →
    Model.refcount o = 1 →
    Model.destructor_fn o ≠ NULL →
    let r := run (Model.model recognized) (rust_ao2_ref obj (-1)) w in
    Model.destroyed r.2 = (Model.destructor_fn o, obj) :: Model.destroyed w
    ∧ Model.invocations (Model.destructor_fn o) obj r.2
      = S (Model.invocations (Model.destructor_fn o) obj w)
    ∧ Model.objects r.2 !! obj = None.
Proof.
  intros recognized obj o w Hlive Hone Hd r. subst r.
  rewrite run_rust_ao2_ref. simpl.
  unfold Model.model_ao2_ref. rewrite Hlive, Hone. simpl.
  rewrite decide_False by done.
  split; [done|]. split; [|apply lookup_delete_eq].
  erewrite invocations_cons by reflexivity.
  by rewrite decide_True.
Qed.

Lemma rust_ao2_ref_last_reference_witness :
  Model.destroyed
    (run (Model.model Model.only_zero) (rust_ao2_ref 8 (-1)) (Model.one_object 1)).2
  = [(4096, 8)].
Proof.
  apply (rust_ao2_ref_last_reference Model.only_zero 8
           (Model.Ao2Object 1 16 4096 0) (Model.one_object 1));
    by vm_compute.
Defined.


(** * Sequences of operations *)

Section Sequences.

Context {W : Type} (fw : framework W).

Lemma calls_seq_underlying (ops : list shim_op) (w : W) :
  calls_seq fw ops w = underlying <$> ops.
Proof.
  revert w. induction ops as [|o rest IH]; intros w; simpl; [done|].
  by rewrite entry_calls, IH.
Qed.

Lemma underlying_not_ast_log (o : shim_op) (level : Z) (message : string) :
  underlying o ≠ ast_log level message.
Proof. by destruct o. Qed.

End Sequences.

(** X1: whatever the operations, their order and the framework's answers
    (failures included), a sequence of shim calls reaches the framework as
    the same sequence of underlying calls: one call per operation, in the
    caller's order, on the caller's arguments, and never a call of the
    logger. *)
Theorem shim_sequence_forwards_one_call_each :
  ∀ (W : Type) (fw : framework W) (ops : list shim_op) (w : W),
    calls_seq fw ops w = underlying <$> ops
    ∧ length (calls_seq fw ops w) = length ops
    ∧ (∀ (i : nat) (o : shim_op),
         ops !! i = Some o → calls_seq fw ops w !! i = Some (underlying o))
    ∧ (∀ level message, ast_log level message ∉ calls_seq fw ops w).
Proof.
  intros W fw ops w. rewrite calls_seq_underlying.
  split; [done|]. split; [apply length_fmap|]. split.
  - intros i o Hi. by rewrite list_lookup_fmap, Hi.
  - intros level message [o [Ho _]]%list_elem_of_fmap.
    by apply (underlying_not_ast_log o level message).
Qed.

(** X2: the shim keeps every invariant the framework keeps.  A property of
    the world that each of the four underlying entry points preserves holds
    after every sequence of shim calls, and at every point in between. *)
Theorem shim_preserves_framework_invariant :
  ∀ (W : Type) (fw : framework W) (Inv : W → Prop)
    (ops : list shim_op) (w : W),
    (∀ (o : shim_op) (w0 : W), o ∈ ops → Inv w0 → Inv (fw (underlying o) w0).2) →
    Inv w →
    ∀ pre post : list shim_op, ops = pre ++ post → Inv (run_seq fw pre w).2.
Proof.
  intros W fw Inv ops w Hstep Hw pre post ->.
  assert (∀ o w0, o ∈ pre → Inv w0 → Inv (fw (underlying o) w0).2) as Hpre.
  { intros o w0 Ho. apply Hstep. apply elem_of_app. by left. }
  clear Hstep. revert w Hw.
  induction pre as [|o rest IH]; intros w Hw; simpl; [done|].
  apply IH.
  - intros o' w0 Ho'. apply Hpre. by right.
  - rewrite entry_world. apply Hpre; [by left|done].
Qed.

Lemma shim_preserves_framework_invariant_witness :
  Model.logged
    (run_seq (Model.model Model.only_zero)
       [Op_ao2_alloc 16 4096 0; Op_ao2_ref 1 (-1)] (Model.empty_world 64)).2 = [].
Proof.
  apply (shim_preserves_framework_invariant Model.world
           (Model.model Model.only_zero) (fun w => Model.logged w = [])
           [Op_ao2_alloc 16 4096 0; Op_ao2_ref 1 (-1); Op_ast_frdup 8]
           (Model.empty_world 64))
    with (post := [Op_ast_frdup 8]); [|reflexivity|reflexivity].
  intros o w0 _ Hlog. destruct o; simpl.
  - unfold Model.model_ao2_alloc_options. by destruct (decide _).
  - unfold Model.model_ao2_ref.
    destruct (Model.objects w0 !! obj); [|done]. by destruct (decide _).
  - unfold Model.model_ast_frdup.
    destruct (Model.frames w0 !! frame); [|done]. by destruct (decide _).
  - unfold Model.model_ast_rtp_engine_register.
    destruct (Model.descriptors w0 !! engine); [|done]. by destruct (decide _).
Defined.

(** X3: a caller cannot tell two frameworks apart through the shim unless
    their entry points already differ.  If, from related worlds, each
    underlying call a sequence needs returns the same value in both
    frameworks and leaves related worlds, then the sequence of shim calls
    returns the same values in both and leaves related worlds. *)
Theorem shim_sequence_respects_simulation :
  ∀ (W1 W2 : Type) (fw1 : framework W1) (fw2 : framework W2)
    (R : W1 → W2 → Prop) (ops : list shim_op) (w1 : W1) (w2 : W2),
    (∀ (o : shim_op) (a : W1) (b : W2),
        o ∈ ops → R a b →
        (fw1 (underlying o) a).1 = (fw2 (underlying o) b).1
        ∧ R (fw1 (underlying o) a).2 (fw2 (underlying o) b).2) →
    R w1 w2 →
    (run_seq fw1 ops w1).1 = (run_seq fw2 ops w2).1
    ∧ R (run_seq fw1 ops w1).2 (run_seq fw2 ops w2).2.
Proof.
  intros W1 W2 fw1 fw2 R ops. induction ops as [|o rest IH];
    intros w1 w2 Hsim HR; simpl; [done|].
  destruct (Hsim o w1 w2) as [Hval Hworld]; [by left|done|].
  destruct (IH (run fw1 (entry o) w1).2 (run fw2 (entry o) w2).2)
    as [Hvals Hworlds].
  - intros o' a b Ho'. apply Hsim. by right.
  - by rewrite !entry_world.
  - split; [|done]. rewrite Hvals. f_equal.
    destruct o; simpl in *; by rewrite ?Hval.
Qed.

Lemma shim_sequence_respects_simulation_witness :
  (run_seq (Model.model Model.only_zero)
     [Op_ao2_alloc 16 4096 0; Op_ao2_ref 1 (-1)] (Model.empty_world 64)).1
  = (run_seq (beside bool (Model.model Model.only_zero))
       [Op_ao2_alloc 16 4096 0; Op_ao2_ref 1 (-1)]
       (true, Model.empty_world 64)).1.
Proof.
  apply (shim_sequence_respects_simulation Model.world (bool * Model.world)
           (Model.model Model.only_zero)
           (beside bool (Model.model Model.only_zero))
           (fun a b => b = (true, a))
           [Op_ao2_alloc 16 4096 0; Op_ao2_ref 1 (-1)]
           (Model.empty_world 64) (true, Model.empty_world 64));
    [|reflexivity].
  intros o a b _ ->. split; reflexivity.
Defined.
